(** * package sys: the in-memory filesystem and the fake path walker

    A shallow embedding of the Go package [sys]: the fake filesystem
    [FakeFS] (a map from path strings to pointers to [bytes.Buffer]), the
    write handle [inMemoryCloser], the descriptor stub [FakeFI] and the
    fake walker [FakeFP].

    Go values are modelled as the code has them:
    - [map[string]*bytes.Buffer] is an optional [gmap string loc]: [None]
      is the nil map (reads find nothing, an assignment panics), the value
      under a key is a pointer into a heap of buffers, so that the handle
      returned by [Create] and the entry of [Files] share one buffer;
    - an entry of [Files] is never the nil pointer: the methods store
      only what [new(bytes.Buffer)] returned;
    - [[]byte] is [list byte], the nil slice being the empty list;
    - [error] is [option error], [None] being nil;
    - a call either returns or panics ([outcome]), in a state monad over
      the memory the call works on;
    - the visitor given to [Walk] is a closure of the caller: a
      computation over a state of its own, which returns or panics. *)

From Stdlib Require Import ZArith String List.
From Stdlib.Strings Require Import Byte.
From stdpp Require Import gmap strings list fin_maps.

Local Open Scope string_scope.
Local Open Scope list_scope.

(** ** Outcomes and the state monad of calls *)

Inductive panic_value : Type :=
  | NilMapAssignment   (* "assignment to entry in nil map" *)
  | NilDereference     (* "invalid memory address or nil pointer dereference" *)
  | CallerPanic (msg : string).

Inductive outcome (A : Type) : Type :=
  | Done (a : A)
  | Panic (v : panic_value).
Arguments Done {A} a.
Arguments Panic {A} v.

Definition M (S A : Type) : Type := S -> outcome A * S.

Definition ret {S A} (a : A) : M S A := fun s => (Done a, s).

Definition bind {S A B} (m : M S A) (k : A -> M S B) : M S B :=
  fun s =>
    match m s with
    | (Done a, s') => k a s'
    | (Panic v, s') => (Panic v, s')
    end.

Definition panic {S A} (v : panic_value) : M S A := fun s => (Panic v, s).

Declare Scope go_scope.
Delimit Scope go_scope with go.
Notation "'let*' x ':=' m 'in' k" := (bind m (fun x => k))
  (at level 10, x name, m at level 100, k at level 200) : go_scope.

(** ** bytes.Buffer and the heap of buffers *)

Definition loc : Type := nat.

(** The unread bytes of a [bytes.Buffer]; only [Write] and [Bytes] are
    called by the package, so the read offset stays 0. *)
Definition Buffer : Type := list byte.

Record Heap : Type := mkHeap {
  cells : loc -> Buffer;
  next : loc
}.

Definition store (l : loc) (b : Buffer) (c : loc -> Buffer) : loc -> Buffer :=
  fun l' => if Nat.eqb l l' then b else c l'.

(** errors of the package: [FakeFileNotFound{Filename}] and the host's
    [os.ErrNotExist]. *)
Inductive error : Type :=
  | FakeFileNotFound (Filename : string)
  | ErrNotExist.

(** [func (f FakeFileNotFound) Error() string] *)
Definition Error (e : error) : string :=
  match e with
  | FakeFileNotFound Filename => String.append "Fake file " (String.append Filename " not found")
  | ErrNotExist => "file does not exist"
  end.

(** [type FakeFS struct { Files map[string]*bytes.Buffer }] *)
Record FakeFS : Type := mkFakeFS {
  Files : option (gmap string loc)
}.

(** The memory a [FakeFS] method works on: the receiver and the buffers. *)
Record Mem : Type := mkMem {
  fake : FakeFS;
  heap : Heap
}.

(** [new(bytes.Buffer)]: a fresh, empty buffer. *)
Definition new_Buffer : M Mem loc := fun m =>
  let l := next (heap m) in
  (Done l, mkMem (fake m) (mkHeap (store l [] (cells (heap m))) (S l))).

(** [func (b *Buffer) Write(p []byte) (n int, err error)]: appends [p],
    returns [len(p)] and nil. *)
Definition Buffer_Write (l : loc) (p : list byte) : M Mem (Z * option error) := fun m =>
  let h := heap m in
  (Done (Z.of_nat (length p), None),
   mkMem (fake m) (mkHeap (store l (cells h l ++ p) (cells h)) (next h))).

(** [func (b *Buffer) Bytes() []byte] *)
Definition Buffer_Bytes (l : loc) : M Mem (list byte) := fun m =>
  (Done (cells (heap m) l), m).

(** [v, ok := f.Files[name]]: [None] when [ok] is false; a nil map has
    no entries. *)
Definition Files_index (name : string) : M Mem (option loc) := fun m =>
  match Files (fake m) with
  | None => (Done None, m)
  | Some fm => (Done (fm !! name), m)
  end.

(** [f.Files[name] = l]: panics on a nil map. *)
Definition Files_assign (name : string) (l : loc) : M Mem unit := fun m =>
  match Files (fake m) with
  | None => (Panic NilMapAssignment, m)
  | Some fm => (Done tt, mkMem (mkFakeFS (Some (<[name := l]> fm))) (heap m))
  end.

(** [delete(f.Files, name)]: a no-op on a nil map. *)
Definition Files_delete (name : string) : M Mem unit := fun m =>
  match Files (fake m) with
  | None => (Done tt, m)
  | Some fm => (Done tt, mkMem (mkFakeFS (Some (delete name fm))) (heap m))
  end.

(** [func NewFakeFS() *FakeFS] *)
Definition NewFakeFS : FakeFS := mkFakeFS (Some ∅).

Definition empty_heap : Heap := mkHeap (fun _ => []) 0.

Local Open Scope go_scope.

(** [func (f *FakeFS) ReadFile(name string) ([]byte, error)] *)
Definition ReadFile (name : string) : M Mem (list byte * option error) :=
  let* buf := Files_index name in
  match buf with
  | None => ret ([], Some (FakeFileNotFound name))
  | Some l => let* b := Buffer_Bytes l in ret (b, None)
  end.

(** [func (f *FakeFS) WriteFile(filename string, data []byte, perm os.FileMode) (int, error)] *)
Definition WriteFile (filename : string) (data : list byte) (perm : Z)
  : M Mem (Z * option error) :=
  let* l := new_Buffer in
  let* _ := Files_assign filename l in
  let* buf := Files_index filename in
  match buf with
  | None => panic NilDereference
  | Some l' => Buffer_Write l' data
  end.

(** [type inMemoryCloser struct { buf *bytes.Buffer }] *)
Record inMemoryCloser : Type := mkInMemoryCloser {
  buf : loc
}.

(** [func (i inMemoryCloser) Write(b []byte) (int, error)] *)
Definition inMemoryCloser_Write (i : inMemoryCloser) (b : list byte)
  : M Mem (Z * option error) :=
  Buffer_Write (buf i) b.

(** [func (i inMemoryCloser) Close() error] *)
Definition inMemoryCloser_Close (i : inMemoryCloser) : M Mem (option error) :=
  ret None.

(** [func (f *FakeFS) RemoveAll(name string) error] *)
Definition RemoveAll (name : string) : M Mem (option error) :=
  let* ok := Files_index name in
  match ok with
  | None => ret (Some (FakeFileNotFound name))
  | Some _ => let* _ := Files_delete name in ret None
  end.

(** [func (f *FakeFS) Create(path string) (io.WriteCloser, error)] *)
Definition Create (path : string) : M Mem (inMemoryCloser * option error) :=
  let* b := new_Buffer in
  let* _ := Files_assign path b in
  ret (mkInMemoryCloser b, None).

(** [func (f *FakeFS) MkdirAll(dirName string, perm os.FileMode) error] *)
Definition MkdirAll (dirName : string) (perm : Z) : M Mem (option error) :=
  let* r := Create dirName in
  ret (snd r).

(** ** fi.go: the descriptor stub *)

(** [type FakeFI struct { os.FileInfo; isDir bool }]; the embedded
    interface is nil and none of its methods is called by the package. *)
Record FakeFI : Type := mkFakeFI {
  isDir : bool
}.

(** [func NewFakeFI() *FakeFI] *)
Definition NewFakeFI : FakeFI := mkFakeFI false.

(** [func (ffi *FakeFI) IsDir() bool] *)
Definition IsDir (ffi : FakeFI) : bool := isDir ffi.

(** [func (ffi *FakeFI) SetIsDir(isDir bool)] *)
Definition SetIsDir (ffi : FakeFI) (b : bool) : FakeFI := mkFakeFI b.

(** [func (f *FakeFS) Stat(path string) (os.FileInfo, error)] *)
Definition Stat (path : string) : M Mem (option FakeFI * option error) :=
  let* r := ReadFile path in
  match snd r with
  | Some _ => ret (None, Some ErrNotExist)
  | None => ret (Some NewFakeFI, None)
  end.

(** ** The fake path walker *)

(** [type FakeFP struct { FakeFS; walkInvoked bool }] *)
Record FakeFP : Type := mkFakeFP {
  FakeFP_FakeFS : FakeFS;
  walkInvoked : bool
}.

(** [func NewFakeFP() *FakeFP { return &FakeFP{} }]: the zero value, whose
    embedded [FakeFS] has a nil [Files] map. *)
Definition NewFakeFP : FakeFP := mkFakeFP (mkFakeFS None) false.

(** One recorded invocation of a visitor, with the arguments it got. *)
Record Visit : Type := mkVisit {
  visit_path : string;
  visit_info : FakeFI;
  visit_err : option error
}.

Section Walk.
(** The state the visitor closure captures and works on; [walkInvoked]
    is unexported, the visitor has no hand on it. *)
Variable W : Type.

(** [filepath.WalkFunc]: [func(path string, info os.FileInfo, err error) error] *)
Definition WalkFunc : Type :=
  string -> FakeFI -> option error -> M W (option error).

Definition set_walkInvoked (b : bool) : M (FakeFP * W) unit := fun s =>
  (Done tt, (mkFakeFP (FakeFP_FakeFS (fst s)) b, snd s)).

Definition call_walkFunc (c : M W (option error)) : M (FakeFP * W) (option error) :=
  fun s => let (r, w) := c (snd s) in (r, (fst s, w)).

(** [func (f *FakeFP) Walk(root string, walkFunc filepath.WalkFunc) error] *)
Definition Walk (root : string) (walkFunc : WalkFunc) : M (FakeFP * W) (option error) :=
  let* _ := set_walkInvoked true in
  call_walkFunc (walkFunc root NewFakeFI None).

(** The visitor [v] made to record each of its invocations, with the
    arguments it got, in a log kept next to its own state. *)
Definition recording (v : WalkFunc)
  : string -> FakeFI -> option error -> M (list Visit * W) (option error) :=
  fun path info err s =>
    let (r, w) := v path info err (snd s) in
    (r, (fst s ++ [mkVisit path info err], w)).
End Walk.

Arguments Walk {W} root walkFunc.
Arguments recording {W} v.

(** ** Sequences of calls on one FakeFS *)

Inductive call : Type :=
  | CallReadFile (name : string)
  | CallRemoveAll (name : string)
  | CallCreate (path : string)
  | CallStat (path : string)
  | CallMkdirAll (dirName : string) (perm : Z)
  | CallWriteFile (filename : string) (data : list byte) (perm : Z)
  | CallWrite (i : inMemoryCloser) (b : list byte)
  | CallClose (i : inMemoryCloser).

(** The error a call returns, its other results dropped. *)
Definition exec (c : call) : M Mem (option error) :=
  match c with
  | CallReadFile name => let* r := ReadFile name in ret (snd r)
  | CallRemoveAll name => RemoveAll name
  | CallCreate path => let* r := Create path in ret (snd r)
  | CallStat path => let* r := Stat path in ret (snd r)
  | CallMkdirAll dirName perm => MkdirAll dirName perm
  | CallWriteFile filename data perm => let* r := WriteFile filename data perm in ret (snd r)
  | CallWrite i b => let* r := inMemoryCloser_Write i b in ret (snd r)
  | CallClose i => inMemoryCloser_Close i
  end.

(** A caller that makes the calls one after the other, whatever error
    each returns; a panic ends the run. *)
Fixpoint exec_all (cs : list call) : M Mem unit :=
  match cs with
  | [] => ret tt
  | c :: cs' => let* _ := exec c in exec_all cs'
  end.

(** [writes_path p c]: [c] is a WriteFile, Create or MkdirAll on [p]. *)
Definition writes_path (p : string) (c : call) : bool :=
  match c with
  | CallCreate q | CallMkdirAll q _ | CallWriteFile q _ _ => String.eqb p q
  | _ => false
  end.

(** The entry of [Files] at a path, if any. *)
Definition entry (m : Mem) (p : string) : option loc :=
  match Files (fake m) with
  | None => None
  | Some fm => fm !! p
  end.

(** The [Files] map has been made (it is not the nil map). *)
Definition allocated (m : Mem) : Prop := Files (fake m) <> None.

(** Every buffer [Files] points to has been handed out by
    [new(bytes.Buffer)]: what [new] returns next is no entry yet. *)
Definition wf (m : Mem) : Prop :=
  forall p l, entry m p = Some l -> l < next (heap m).

(** ** The properties of the specification, as predicates on the code *)

(** [modifies_path p l c]: [c] is an operation on the path [p] whose
    buffer is [l]: a WriteFile, Create, MkdirAll or RemoveAll of [p], or a
    Write to the buffer [l]. *)
Definition modifies_path (p : string) (l : loc) (c : call) : bool :=
  match c with
  | CallRemoveAll q => String.eqb p q
  | CallWrite i _ => Nat.eqb (buf i) l
  | _ => writes_path p c
  end.

(** WriteFile succeeds with [len(data)] and nil, and a ReadFile of the
    path that follows, with no operation on the path in between, gives
    back [data]. *)
Definition WriteFile_roundtrip (m : Mem) (p : string) (data : list byte) (perm : Z) : Prop :=
  exists m1 l,
    WriteFile p data perm m = (Done (Z.of_nat (length data), None), m1) /\
    entry m1 p = Some l /\
    forall cs,
      forallb (fun c => negb (modifies_path p l c)) cs = true ->
      ReadFile p (snd (exec_all cs m1)) = (Done (data, None), snd (exec_all cs m1)).

(** Create succeeds, installs a new empty buffer at the path, what is
    written through the handle is what ReadFile gives back, and Close does
    nothing and returns nil. *)
Definition Create_installs (m : Mem) (p : string) (b : list byte) : Prop :=
  exists i m1,
    Create p m = (Done (i, None), m1) /\
    buf i = next (heap m) /\
    entry m1 p = Some (buf i) /\
    ReadFile p m1 = (Done ([], None), m1) /\
    (exists m2,
       inMemoryCloser_Write i b m1 = (Done (Z.of_nat (length b), None), m2) /\
       ReadFile p m2 = (Done (b, None), m2)) /\
    (forall m', inMemoryCloser_Close i m' = (Done None, m')).

(** MkdirAll succeeds and leaves at the path what an empty file is: an
    empty content and a descriptor that is no directory. *)
Definition MkdirAll_empty_entry (m : Mem) (p : string) (perm : Z) : Prop :=
  exists m1,
    MkdirAll p perm m = (Done None, m1) /\
    ReadFile p m1 = (Done ([], None), m1) /\
    (exists fi, Stat p m1 = (Done (Some fi, None), m1) /\ IsDir fi = false).

(** The memory of the zero-value FakeFS that [NewFakeFP] embeds. *)
Definition zero_value_mem : Mem := mkMem (FakeFP_FakeFS NewFakeFP) empty_heap.

(** The memory of a FakeFS just made by [NewFakeFS]. *)
Definition fresh_mem (h : Heap) : Mem := mkMem NewFakeFS h.

(** A run of calls that never writes c.txt. *)
Definition sample_calls : list call :=
  [CallWriteFile "a.txt" (list_byte_of_string "hello") 420;
   CallCreate "b.txt"; CallRemoveAll "a.txt"; CallStat "c.txt"].

(** ** The FakeFS seen as a flat store, and runs of calls *)

(** What the FakeFS holds: the bytes of the buffer of every entry. The
    nil map holds nothing. *)
Definition contents (m : Mem) : gmap string (list byte) :=
  match Files (fake m) with
  | None => ∅
  | Some fm => cells (heap m) <$> fm
  end.

(** No two paths of [Files] point to one buffer. *)
Definition separate (m : Mem) : Prop :=
  forall p q l, entry m p = Some l -> entry m q = Some l -> p = q.

(** A flat key-value store of contents, to compare the FakeFS with: the
    error a call returns and the store it leaves. A Write through a
    handle names a buffer, not a path, and has no counterpart here. *)
Definition flat_step (c : call) (kv : gmap string (list byte))
  : option error * gmap string (list byte) :=
  match c with
  | CallReadFile name =>
      (match kv !! name with Some _ => None | None => Some (FakeFileNotFound name) end, kv)
  | CallRemoveAll name =>
      (match kv !! name with Some _ => None | None => Some (FakeFileNotFound name) end,
       delete name kv)
  | CallCreate path => (None, <[path := []]> kv)
  | CallStat path =>
      (match kv !! path with Some _ => None | None => Some ErrNotExist end, kv)
  | CallMkdirAll dirName _ => (None, <[dirName := []]> kv)
  | CallWriteFile filename data _ => (None, <[filename := data]> kv)
  | CallWrite _ _ => (None, kv)
  | CallClose _ => (None, kv)
  end.

Fixpoint flat_trace (cs : list call) (kv : gmap string (list byte))
  : list (option error) * gmap string (list byte) :=
  match cs with
  | [] => ([], kv)
  | c :: cs' =>
      let r := flat_step c kv in
      let rs := flat_trace cs' (snd r) in
      (fst r :: fst rs, snd rs)
  end.

(** The errors a caller collects from a run of calls. *)
Fixpoint exec_trace (cs : list call) : M Mem (list (option error)) :=
  match cs with
  | [] => ret []
  | c :: cs' =>
      let* e := exec c in
      let* es := exec_trace cs' in
      ret (e :: es)
  end.

Definition is_handle_write (c : call) : bool :=
  match c with
  | CallWrite _ _ => true
  | _ => false
  end.

(** [stores c]: [c] assigns into [Files] (Create, MkdirAll, WriteFile). *)
Definition stores (c : call) : bool :=
  match c with
  | CallCreate _ | CallMkdirAll _ _ | CallWriteFile _ _ _ => true
  | _ => false
  end.

(** What a caller does with one handle. *)
Inductive handle_op : Type :=
  | HandleWrite (b : list byte)
  | HandleClose.

Definition handle_call (i : inMemoryCloser) (o : handle_op) : call :=
  match o with
  | HandleWrite b => CallWrite i b
  | HandleClose => CallClose i
  end.

Fixpoint written (os : list handle_op) : list byte :=
  match os with
  | [] => []
  | HandleWrite b :: os' => b ++ written os'
  | HandleClose :: os' => written os'
  end.


(** A caller that writes a file by hand: Create, one Write through the
    handle, Close. *)
Definition Create_Write_Close (path : string) (data : list byte)
  : M Mem (Z * option error) :=
  let* r := Create path in
  let* n := inMemoryCloser_Write (fst r) data in
  let* _ := inMemoryCloser_Close (fst r) in
  ret n.

(** ** Basic facts on the memory operations *)

Ltac unfold_calls :=
  unfold exec, WriteFile, MkdirAll, Create, Stat, RemoveAll, ReadFile,
    inMemoryCloser_Close, inMemoryCloser_Write, Buffer_Write, Buffer_Bytes,
    new_Buffer, Files_assign, Files_delete, Files_index, bind, ret, panic, entry in *;
  simpl in *.

Lemma String_eqb_false_ne (p q : string) : String.eqb p q = false -> q <> p.
Proof. intros H ->. by rewrite String.eqb_refl in H. Qed.

Lemma store_same l b c : store l b c l = b.
Proof. unfold store. by rewrite Nat.eqb_refl. Qed.

Lemma store_other l l' b c : l <> l' -> store l b c l' = c l'.
Proof. unfold store. intros Hne. destruct (Nat.eqb_spec l l'); congruence. Qed.

Lemma ReadFile_entry m p l :
  entry m p = Some l -> ReadFile p m = (Done (cells (heap m) l, None), m).
Proof.
  unfold entry, ReadFile, bind, Files_index. intros He.
  destruct (Files (fake m)) as [fm|]; [|discriminate].
  by rewrite He.
Qed.

Lemma ReadFile_no_entry m p :
  entry m p = None -> ReadFile p m = (Done ([], Some (FakeFileNotFound p)), m).
Proof.
  unfold entry, ReadFile, bind, Files_index. intros He.
  destruct (Files (fake m)) as [fm|]; [by rewrite He | done].
Qed.

Lemma WriteFile_allocated m fm p data perm :
  Files (fake m) = Some fm ->
  WriteFile p data perm m =
    (Done (Z.of_nat (length data), None),
     mkMem (mkFakeFS (Some (<[p := next (heap m)]> fm)))
           (mkHeap (store (next (heap m)) data (store (next (heap m)) [] (cells (heap m))))
                   (S (next (heap m))))).
Proof.
  intros Hfm. unfold WriteFile, bind, new_Buffer, Files_assign, Files_index. simpl.
  rewrite Hfm. simpl. rewrite lookup_insert_eq.
  unfold Buffer_Write. simpl. by rewrite store_same.
Qed.

Lemma WriteFile_nil_map m p data perm :
  Files (fake m) = None ->
  fst (WriteFile p data perm m) = Panic NilMapAssignment.
Proof.
  intros Hfm. unfold WriteFile, bind, new_Buffer, Files_assign. simpl.
  by rewrite Hfm.
Qed.

Lemma WriteFile_returns_allocated m p data perm r m1 :
  WriteFile p data perm m = (Done r, m1) -> allocated m.
Proof.
  intros Hw Hnil. apply (WriteFile_nil_map m p data perm) in Hnil.
  rewrite Hw in Hnil. discriminate.
Qed.

Lemma allocated_Some m : allocated m -> exists fm, Files (fake m) = Some fm.
Proof. unfold allocated. destruct (Files (fake m)); [eauto | done]. Qed.

Lemma Create_allocated m fm p :
  Files (fake m) = Some fm ->
  Create p m =
    (Done (mkInMemoryCloser (next (heap m)), None),
     mkMem (mkFakeFS (Some (<[p := next (heap m)]> fm)))
           (mkHeap (store (next (heap m)) [] (cells (heap m))) (S (next (heap m))))).
Proof.
  intros Hfm. unfold Create, bind, new_Buffer, Files_assign. simpl.
  by rewrite Hfm.
Qed.

Lemma Create_nil_map m p :
  Files (fake m) = None -> fst (Create p m) = Panic NilMapAssignment.
Proof.
  intros Hfm. unfold Create, bind, new_Buffer, Files_assign. simpl.
  by rewrite Hfm.
Qed.

(** ** The buffers of the entries are allocated ones *)

Lemma fresh_mem_wf h : wf (fresh_mem h).
Proof.
  intros p l He. unfold entry, fresh_mem in He. simpl in He.
  by rewrite lookup_empty in He.
Qed.

Lemma zero_value_mem_wf : wf zero_value_mem.
Proof. intros p l He. discriminate He. Qed.

Lemma exec_preserves_wf (c : call) (m : Mem) : wf m -> wf (snd (exec c m)).
Proof.
  intros Hwf p l. specialize (Hwf p). destruct m as [[fmo] [cs n]].
  destruct c as [name|name|path|path|dirName perm|filename data perm|i b|i];
    unfold_calls; destruct fmo as [fm|]; simpl in *; try done.
  - destruct (fm !! name); simpl; apply Hwf.
  - destruct (fm !! name) eqn:Hn; simpl; [|apply Hwf].
    destruct (decide (name = p)) as [->|Hne].
    + by rewrite lookup_delete_eq.
    + rewrite lookup_delete_ne by done. apply Hwf.
  - destruct (decide (path = p)) as [->|Hne].
    + rewrite lookup_insert_eq. intros [= <-]. lia.
    + rewrite lookup_insert_ne by done. intros He. specialize (Hwf l He). lia.
  - destruct (fm !! path); simpl; apply Hwf.
  - destruct (decide (dirName = p)) as [->|Hne].
    + rewrite lookup_insert_eq. intros [= <-]. lia.
    + rewrite lookup_insert_ne by done. intros He. specialize (Hwf l He). lia.
  - rewrite lookup_insert_eq. simpl. destruct (decide (filename = p)) as [->|Hne].
    + rewrite lookup_insert_eq. intros [= <-]. lia.
    + rewrite lookup_insert_ne by done. intros He. specialize (Hwf l He). lia.
  - apply Hwf.
  - apply Hwf.
Qed.

Lemma exec_all_preserves_wf (cs : list call) (m : Mem) : wf m -> wf (snd (exec_all cs m)).
Proof.
  revert m. induction cs as [|c cs IH]; intros m Hwf; simpl; [done|].
  pose proof (exec_preserves_wf c m Hwf) as Hwf'.
  unfold bind. destruct (exec c m) as [[o|v] m']; simpl in *; [by apply IH | done].
Qed.

(** ** WriteFile and ReadFile *)

(** A call that is no operation on [p] leaves the entry of [p] and the
    content of its buffer as they are. *)
Lemma exec_frame (c : call) (p : string) (l : loc) (m : Mem) :
  entry m p = Some l -> l < next (heap m) -> modifies_path p l c = false ->
  entry (snd (exec c m)) p = Some l /\
  cells (heap (snd (exec c m))) l = cells (heap m) l /\
  l < next (heap (snd (exec c m))).
Proof.
  intros He Hl Hc. destruct m as [[fmo] [cs n]].
  destruct fmo as [fm|]; [|discriminate He].
  simpl in Hl. assert (n <> l) as Hnl by lia.
  destruct c as [name|name|path|path|dirName perm|filename data perm|i b|i];
    unfold_calls.
  - by destruct (fm !! name).
  - apply String_eqb_false_ne in Hc.
    destruct (fm !! name); simpl; [by rewrite lookup_delete_ne | done].
  - apply String_eqb_false_ne in Hc.
    rewrite lookup_insert_ne, store_other by done. repeat split; [done | lia].
  - by destruct (fm !! path).
  - apply String_eqb_false_ne in Hc.
    rewrite lookup_insert_ne, store_other by done. repeat split; [done | lia].
  - apply String_eqb_false_ne in Hc.
    rewrite lookup_insert_eq. simpl.
    rewrite lookup_insert_ne, !store_other by done. repeat split; [done | lia].
  - apply Nat.eqb_neq in Hc. by rewrite store_other.
  - done.
Qed.

Lemma exec_all_frame (cs : list call) (p : string) (l : loc) (m : Mem) :
  entry m p = Some l -> l < next (heap m) ->
  forallb (fun c => negb (modifies_path p l c)) cs = true ->
  entry (snd (exec_all cs m)) p = Some l /\
  cells (heap (snd (exec_all cs m))) l = cells (heap m) l.
Proof.
  revert m. induction cs as [|c cs IH]; intros m He Hl Hcs; simpl in *; [done|].
  apply andb_true_iff in Hcs as [Hc Hcs]. apply negb_true_iff in Hc.
  destruct (exec_frame c p l m He Hl Hc) as (He' & Hcells & Hl').
  unfold bind. destruct (exec c m) as [[o|v] m']; simpl in *.
  - destruct (IH m' He' Hl' Hcs) as [He2 Hc2]. split; [done | congruence].
  - done.
Qed.

Lemma WriteFile_then_ReadFile (m : Mem) (p : string) (data : list byte) (perm : Z) :
  allocated m -> WriteFile_roundtrip m p data perm.
Proof.
  intros [fm Hfm]%allocated_Some.
  pose proof (WriteFile_allocated m fm p data perm Hfm) as Hw.
  set (l := next (heap m)) in *.
  set (m1 := mkMem _ _) in Hw.
  assert (entry m1 p = Some l) as He by (unfold entry; simpl; apply lookup_insert_eq).
  exists m1, l. split; [done|]. split; [done|].
  intros cs Hcs.
  destruct (exec_all_frame cs p l m1 He) as [He' Hcells]; [simpl; lia | done |].
  rewrite (ReadFile_entry _ _ _ He'), Hcells. simpl. by rewrite store_same.
Qed.

Lemma WriteFile_read_back (m : Mem) (p : string) (data : list byte) (perm : Z) :
  WriteFile_roundtrip m p data perm ->
  exists m1,
    WriteFile p data perm m = (Done (Z.of_nat (length data), None), m1) /\
    ReadFile p m1 = (Done (data, None), m1).
Proof.
  intros (m1' & l & Hw & _ & Hr). exists m1'. split; [done|].
  apply (Hr []). reflexivity.
Qed.

(** C1, as the specification states it, fails on the zero-value FakeFS:
    WriteFile panics on the nil map. *)
Lemma WriteFile_roundtrip_zero_value_fails :
  ~ WriteFile_roundtrip zero_value_mem "a.txt" (list_byte_of_string "hello") 420.
Proof.
  intros (m1 & l & Hw & _).
  pose proof (WriteFile_nil_map zero_value_mem "a.txt" (list_byte_of_string "hello") 420
                eq_refl) as Hp.
  rewrite Hw in Hp. discriminate.
Qed.

(** C1 (amended): on a FakeFS whose Files map has been made, for every
    path, data and mode, WriteFile returns the length of the data and a nil
    error, and the ReadFile that follows returns exactly the data. *)
Theorem WriteFile_ReadFile_roundtrip (m : Mem) (p : string) (data : list byte) (perm : Z) :
  allocated m -> WriteFile_roundtrip m p data perm.
Proof. apply WriteFile_then_ReadFile. Qed.

Lemma WriteFile_ReadFile_roundtrip_witness :
  WriteFile_roundtrip (fresh_mem empty_heap) "a.txt" (list_byte_of_string "hello") 420.
Proof.
  apply (WriteFile_ReadFile_roundtrip (fresh_mem empty_heap) "a.txt"
           (list_byte_of_string "hello") 420).
  unfold allocated. simpl. discriminate.
Defined.

(** ** Paths never written *)

(** A call that is no WriteFile, Create or MkdirAll on [p] makes no entry
    at [p]. *)
Lemma exec_keeps_no_entry (c : call) (p : string) (m : Mem) :
  writes_path p c = false -> entry m p = None -> entry (snd (exec c m)) p = None.
Proof.
  intros Hc He. destruct m as [[fmo] h].
  destruct c as [name|name|path|path|dirName perm|filename data perm|i b|i];
    unfold_calls; destruct fmo as [fm|]; simpl in *; try done.
  - by destruct (fm !! name).
  - destruct (fm !! name); simpl; [|done].
    destruct (decide (name = p)) as [->|Hne];
      [apply lookup_delete_eq | by rewrite lookup_delete_ne].
  - rewrite lookup_insert_ne; [done | by apply String_eqb_false_ne].
  - by destruct (fm !! path).
  - rewrite lookup_insert_ne; [done | by apply String_eqb_false_ne].
  - rewrite lookup_insert_eq. simpl.
    rewrite lookup_insert_ne; [done | by apply String_eqb_false_ne].
Qed.

Lemma exec_all_keeps_no_entry (cs : list call) (p : string) (m : Mem) :
  forallb (fun c => negb (writes_path p c)) cs = true ->
  entry m p = None -> entry (snd (exec_all cs m)) p = None.
Proof.
  revert m. induction cs as [|c cs IH]; intros m Hcs He; simpl in *; [done|].
  apply andb_true_iff in Hcs as [Hc Hcs]. apply negb_true_iff in Hc.
  pose proof (exec_keeps_no_entry c p m Hc He) as He'.
  unfold bind. destruct (exec c m) as [[o|v] m']; simpl in *; [by apply IH | done].
Qed.

(** C2: on a FakeFS newly made (by [NewFakeFS], or the zero value that
    [NewFakeFP] embeds), after any sequence of calls none of which is a
    WriteFile, Create or MkdirAll on [p], ReadFile of [p] fails with
    FakeFileNotFound whose Filename is [p]; on the FakeFS [NewFakeFS]
    returns, ReadFile of missing.txt is FakeFileNotFound of missing.txt. *)
Theorem ReadFile_never_written (f0 : FakeFS) (h : Heap) (cs : list call) (p : string) :
  f0 = NewFakeFS \/ f0 = FakeFP_FakeFS NewFakeFP ->
  forallb (fun c => negb (writes_path p c)) cs = true ->
  ReadFile p (snd (exec_all cs (mkMem f0 h)))
    = (Done ([], Some (FakeFileNotFound p)), snd (exec_all cs (mkMem f0 h))) /\
  ReadFile "missing.txt" (fresh_mem h)
    = (Done ([], Some (FakeFileNotFound "missing.txt")), fresh_mem h).
Proof.
  intros Hf0 Hcs. split.
  - apply ReadFile_no_entry, exec_all_keeps_no_entry; [done|].
    unfold entry. destruct Hf0 as [-> | ->]; simpl; [apply lookup_empty | done].
  - apply ReadFile_no_entry. unfold entry, fresh_mem. simpl. apply lookup_empty.
Qed.

Lemma ReadFile_never_written_witness :
  ReadFile "c.txt" (snd (exec_all sample_calls (fresh_mem empty_heap)))
  = (Done ([], Some (FakeFileNotFound "c.txt")),
     snd (exec_all sample_calls (fresh_mem empty_heap))).
Proof.
  apply (ReadFile_never_written NewFakeFS empty_heap sample_calls "c.txt");
    [left | ]; reflexivity.
Defined.

(** ** Overwriting *)

(** C3: once WriteFile of [data1] at [p] has returned, WriteFile of
    [data2] at [p] returns too and ReadFile of [p] then returns exactly
    [data2]: the second write replaces the first. *)
Theorem WriteFile_overwrites (m m1 : Mem) (p : string) (data1 data2 : list byte)
    (perm : Z) (r1 : Z * option error) :
  WriteFile p data1 perm m = (Done r1, m1) ->
  exists m2,
    WriteFile p data2 perm m1 = (Done (Z.of_nat (length data2), None), m2) /\
    ReadFile p m2 = (Done (data2, None), m2).
Proof.
  intros Hw1.
  assert (allocated m1) as Ha1.
  { destruct (allocated_Some m (WriteFile_returns_allocated _ _ _ _ _ _ Hw1)) as [fm Hfm].
    rewrite (WriteFile_allocated m fm p data1 perm Hfm) in Hw1.
    injection Hw1 as _ <-. unfold allocated. simpl. discriminate. }
  exact (WriteFile_read_back m1 p data2 perm (WriteFile_then_ReadFile m1 p data2 perm Ha1)).
Qed.

Lemma WriteFile_overwrites_witness :
  exists m2,
    WriteFile "a.txt" (list_byte_of_string "bye") 420
      (snd (WriteFile "a.txt" (list_byte_of_string "hello") 420 (fresh_mem empty_heap)))
    = (Done (3%Z, None), m2) /\
    ReadFile "a.txt" m2 = (Done (list_byte_of_string "bye", None), m2).
Proof.
  apply (WriteFile_overwrites (fresh_mem empty_heap) _ "a.txt"
           (list_byte_of_string "hello") (list_byte_of_string "bye") 420
           (5%Z, None)).
  reflexivity.
Defined.

(** ** RemoveAll *)

Lemma RemoveAll_no_entry m p :
  entry m p = None -> RemoveAll p m = (Done (Some (FakeFileNotFound p)), m).
Proof.
  unfold entry, RemoveAll, bind, Files_index. intros He.
  destruct (Files (fake m)) as [fm|]; [by rewrite He | done].
Qed.

Lemma RemoveAll_entry m fm p l :
  Files (fake m) = Some fm -> fm !! p = Some l ->
  RemoveAll p m = (Done None, mkMem (mkFakeFS (Some (delete p fm))) (heap m)).
Proof.
  intros Hfm Hl. unfold RemoveAll, bind, Files_index, Files_delete.
  by rewrite Hfm, Hl; simpl; rewrite Hfm.
Qed.

(** C5: RemoveAll of a path that has no entry fails with FakeFileNotFound
    of that path; once WriteFile at [p] has returned, RemoveAll of [p]
    returns nil and the ReadFile of [p] that follows fails with
    FakeFileNotFound. *)
Theorem RemoveAll_spec (m : Mem) (p : string) :
  (entry m p = None -> RemoveAll p m = (Done (Some (FakeFileNotFound p)), m)) /\
  (forall data perm r m1,
     WriteFile p data perm m = (Done r, m1) ->
     exists m2,
       RemoveAll p m1 = (Done None, m2) /\
       ReadFile p m2 = (Done ([], Some (FakeFileNotFound p)), m2)).
Proof.
  split; [apply RemoveAll_no_entry|].
  intros data perm r m1 Hw.
  destruct (allocated_Some m (WriteFile_returns_allocated _ _ _ _ _ _ Hw)) as [fm Hfm].
  rewrite (WriteFile_allocated m fm p data perm Hfm) in Hw.
  injection Hw as _ <-. eexists. split.
  - eapply RemoveAll_entry; [reflexivity | apply lookup_insert_eq].
  - apply ReadFile_no_entry. unfold entry. simpl. apply lookup_delete_eq.
Qed.

Lemma RemoveAll_spec_witness :
  RemoveAll "a.txt" (fresh_mem empty_heap)
    = (Done (Some (FakeFileNotFound "a.txt")), fresh_mem empty_heap) /\
  exists m2,
    RemoveAll "a.txt"
      (snd (WriteFile "a.txt" (list_byte_of_string "hello") 420 (fresh_mem empty_heap)))
    = (Done None, m2) /\
    ReadFile "a.txt" m2 = (Done ([], Some (FakeFileNotFound "a.txt")), m2).
Proof.
  destruct (RemoveAll_spec (fresh_mem empty_heap) "a.txt") as [Habsent Hwritten].
  split.
  - apply Habsent. reflexivity.
  - apply (Hwritten (list_byte_of_string "hello") 420%Z (5%Z, None)). reflexivity.
Defined.

(** ** Create and the write handle *)

(** C4, as the specification states it, fails on the zero-value FakeFS:
    Create panics on the nil map. *)
Lemma Create_installs_zero_value_fails :
  ~ Create_installs zero_value_mem "a.txt" (list_byte_of_string "hello").
Proof.
  intros (i & m1 & Hc & _).
  pose proof (Create_nil_map zero_value_mem "a.txt" eq_refl) as Hp.
  rewrite Hc in Hp. discriminate.
Qed.

(** C4 (amended): on a FakeFS whose Files map has been made, for every
    path, Create returns a handle and a nil error and puts a new, empty
    buffer at the path in place of any entry there; the bytes written
    through the handle are exactly what ReadFile of the path returns, and
    Close of the handle changes nothing and returns nil. *)
Theorem Create_write_ReadFile (m : Mem) (p : string) (b : list byte) :
  allocated m -> Create_installs m p b.
Proof.
  intros [fm Hfm]%allocated_Some.
  exists (mkInMemoryCloser (next (heap m))). eexists.
  split; [by apply Create_allocated|].
  split; [done|].
  assert (forall h', entry (mkMem (mkFakeFS (Some (<[p := next (heap m)]> fm))) h') p
                     = Some (next (heap m))) as He.
  { intros h'. unfold entry. simpl. apply lookup_insert_eq. }
  split; [apply He|].
  split.
  { rewrite (ReadFile_entry _ _ _ (He _)). simpl. by rewrite store_same. }
  split; [|done].
  eexists. split.
  - unfold inMemoryCloser_Write, Buffer_Write. simpl. reflexivity.
  - rewrite (ReadFile_entry _ _ _ (He _)). simpl. by rewrite !store_same.
Qed.

Lemma Create_write_ReadFile_witness :
  Create_installs
    (snd (WriteFile "a.txt" (list_byte_of_string "old") 420 (fresh_mem empty_heap)))
    "a.txt" (list_byte_of_string "hello").
Proof.
  apply (Create_write_ReadFile
           (snd (WriteFile "a.txt" (list_byte_of_string "old") 420 (fresh_mem empty_heap)))
           "a.txt" (list_byte_of_string "hello")).
  unfold allocated. simpl. discriminate.
Defined.

(** The buffer Create installs is none of the buffers [Files] pointed
    to: a handle got from an earlier Create of the path writes elsewhere. *)
Lemma Create_buffer_is_new (m m1 : Mem) (p q : string) (i : inMemoryCloser) (l : loc) :
  wf m -> Create p m = (Done (i, None), m1) -> entry m q = Some l -> buf i <> l.
Proof.
  intros Hwf Hc He. specialize (Hwf q l He).
  destruct (Files (fake m)) as [fm|] eqn:Hfm.
  - rewrite (Create_allocated m fm p Hfm) in Hc. injection Hc as <- _. simpl. lia.
  - pose proof (Create_nil_map m p Hfm) as Hp. rewrite Hc in Hp. discriminate.
Qed.

(** ** Stat *)

Lemma Stat_entry m p l :
  entry m p = Some l -> Stat p m = (Done (Some NewFakeFI, None), m).
Proof. intros He. unfold Stat, bind. by rewrite (ReadFile_entry m p l He). Qed.

Lemma Stat_no_entry m p :
  entry m p = None -> Stat p m = (Done (None, Some ErrNotExist), m).
Proof. intros He. unfold Stat, bind. by rewrite (ReadFile_no_entry m p He). Qed.

(** C6: Stat of a path that has no entry fails with os.ErrNotExist; Stat
    of a path that has one returns a descriptor and a nil error, and IsDir
    of that descriptor is false. *)
Theorem Stat_spec (m : Mem) (p : string) :
  (entry m p = None -> Stat p m = (Done (None, Some ErrNotExist), m)) /\
  (forall l, entry m p = Some l ->
     exists fi, Stat p m = (Done (Some fi, None), m) /\ IsDir fi = false).
Proof.
  split; [apply Stat_no_entry|].
  intros l He. exists NewFakeFI. split; [by eapply Stat_entry | done].
Qed.

Lemma Stat_spec_witness :
  Stat "missing.txt" (fresh_mem empty_heap)
    = (Done (None, Some ErrNotExist), fresh_mem empty_heap) /\
  exists fi,
    Stat "a.txt" (snd (WriteFile "a.txt" (list_byte_of_string "hello") 420
                         (fresh_mem empty_heap)))
    = (Done (Some fi, None),
       snd (WriteFile "a.txt" (list_byte_of_string "hello") 420 (fresh_mem empty_heap))) /\
    IsDir fi = false.
Proof.
  split.
  - apply (Stat_spec (fresh_mem empty_heap) "missing.txt"). reflexivity.
  - apply (Stat_spec (snd (WriteFile "a.txt" (list_byte_of_string "hello") 420
                             (fresh_mem empty_heap))) "a.txt") with (l := 0).
    reflexivity.
Defined.

(** ** MkdirAll *)

(** C7, as the specification states it, fails on the zero-value FakeFS:
    MkdirAll calls Create, which panics on the nil map. *)
Lemma MkdirAll_empty_entry_zero_value_fails :
  ~ MkdirAll_empty_entry zero_value_mem "dir" 493.
Proof.
  intros (m1 & Hmk & _).
  assert (fst (MkdirAll "dir" 493 zero_value_mem) = Panic NilMapAssignment) as Hp
    by reflexivity.
  rewrite Hmk in Hp. discriminate.
Qed.

(** C7 (amended): on a FakeFS whose Files map has been made, for every
    path and mode, MkdirAll returns nil, and afterwards ReadFile of the
    path returns the empty byte sequence and Stat of the path returns a
    descriptor whose IsDir is false, whatever the path held before. *)
Theorem MkdirAll_is_empty_file (m : Mem) (p : string) (perm : Z) :
  allocated m -> MkdirAll_empty_entry m p perm.
Proof.
  intros [fm Hfm]%allocated_Some. eexists. split.
  - unfold MkdirAll, bind. rewrite (Create_allocated m fm p Hfm). reflexivity.
  - assert (entry (mkMem (mkFakeFS (Some (<[p := next (heap m)]> fm)))
                     (mkHeap (store (next (heap m)) [] (cells (heap m))) (S (next (heap m))))) p
            = Some (next (heap m))) as He.
    { unfold entry. simpl. apply lookup_insert_eq. }
    split.
    + rewrite (ReadFile_entry _ _ _ He). simpl. by rewrite store_same.
    + exists NewFakeFI. split; [by eapply Stat_entry | done].
Qed.

Lemma MkdirAll_is_empty_file_witness :
  MkdirAll_empty_entry
    (snd (WriteFile "dir" (list_byte_of_string "data") 420 (fresh_mem empty_heap)))
    "dir" 493.
Proof.
  apply (MkdirAll_is_empty_file
           (snd (WriteFile "dir" (list_byte_of_string "data") 420 (fresh_mem empty_heap)))
           "dir" 493).
  unfold allocated. simpl. discriminate.
Defined.

(** ** Calls that fail change nothing *)

Lemma ReadFile_keeps_mem m name : snd (ReadFile name m) = m.
Proof.
  destruct (entry m name) as [l|] eqn:He.
  - by rewrite (ReadFile_entry m name l He).
  - by rewrite (ReadFile_no_entry m name He).
Qed.

Lemma Stat_keeps_mem m path : snd (Stat path m) = m.
Proof.
  destruct (entry m path) as [l|] eqn:He.
  - by rewrite (Stat_entry m path l He).
  - by rewrite (Stat_no_entry m path He).
Qed.

(** C9: a call on a FakeFS that returns a non-nil error leaves the memory,
    and with it the Files map, as it was; ReadFile and Stat leave it as it
    was whatever they return. *)
Theorem failing_calls_change_nothing (m : Mem) :
  (forall c e m', exec c m = (Done (Some e), m') -> m' = m) /\
  (forall name, snd (ReadFile name m) = m) /\
  (forall path, snd (Stat path m) = m).
Proof.
  split; [|split; [apply ReadFile_keeps_mem | apply Stat_keeps_mem]].
  intros c e m' Hc. destruct m as [[fmo] h].
  destruct c as [name|name|path|path|dirName perm|filename data perm|i b|i];
    unfold_calls; destruct fmo as [fm|]; simpl in *;
    repeat match goal with
           | H : context [?fm !! ?k] |- _ => destruct (fm !! k); simpl in H
           end;
    congruence.
Qed.

Lemma failing_calls_change_nothing_witness :
  snd (exec (CallRemoveAll "missing.txt") (fresh_mem empty_heap)) = fresh_mem empty_heap.
Proof.
  destruct (failing_calls_change_nothing (fresh_mem empty_heap)) as [Herr _].
  apply (Herr (CallRemoveAll "missing.txt") (FakeFileNotFound "missing.txt")).
  reflexivity.
Defined.

(** ** The fake walk *)

Section WalkFacts.
Context {W : Type}.
Implicit Types (f : FakeFP) (v : WalkFunc W) (w : W) (root : string).

Lemma Walk_unfold {S : Type} (f : FakeFP) root (v : WalkFunc S) (s : S) :
  Walk root v (f, s) =
    (fst (v root NewFakeFI None s),
     (mkFakeFP (FakeFP_FakeFS f) true, snd (v root NewFakeFI None s))).
Proof.
  unfold Walk, bind, set_walkInvoked, call_walkFunc. simpl.
  by destruct (v root NewFakeFI None s) as [[r|pv] s'].
Qed.

(** Recording the invocations changes neither what the visitor returns
    nor what it does to its state. *)
Lemma recording_transparent v path info err log w :
  fst (recording v path info err (log, w)) = fst (v path info err w) /\
  snd (snd (recording v path info err (log, w))) = snd (v path info err w).
Proof. unfold recording. simpl. by destruct (v path info err w). Qed.

(** C8: for every root and visitor, Walk invokes the visitor exactly
    once, with the root, a new FakeFI whose IsDir is false and a nil
    error, and sets walkInvoked to true. *)
Theorem Walk_visits_root_once f root v w :
  fst (snd (snd (Walk root (recording v) (f, ([], w)))))
    = [mkVisit root NewFakeFI None] /\
  IsDir NewFakeFI = false /\
  walkInvoked (fst (snd (Walk root v (f, w)))) = true /\
  walkInvoked (fst (snd (Walk root (recording v) (f, ([], w))))) = true.
Proof.
  rewrite !Walk_unfold. simpl. unfold recording. simpl.
  by destruct (v root NewFakeFI None w).
Qed.

(** C10: what Walk returns is what the visitor returns for its one
    invocation, a non-nil error included, and walkInvoked is true after
    the call whatever that value is. *)
Theorem Walk_returns_visitor_result f root v w :
  fst (Walk root v (f, w)) = fst (v root NewFakeFI None w) /\
  snd (snd (Walk root v (f, w))) = snd (v root NewFakeFI None w) /\
  walkInvoked (fst (snd (Walk root v (f, w)))) = true /\
  (forall e w', v root NewFakeFI None w = (Done (Some e), w') ->
     fst (Walk root v (f, w)) = Done (Some e)).
Proof.
  rewrite Walk_unfold. simpl. repeat split.
  intros e w' Hv. by rewrite Hv.
Qed.

End WalkFacts.

Lemma Walk_returns_visitor_result_witness :
  fst (Walk "/tmp" (fun _ _ _ n => (Done (Some ErrNotExist), S n)) (NewFakeFP, 0))
  = Done (Some ErrNotExist).
Proof.
  destruct (Walk_returns_visitor_result NewFakeFP "/tmp"
              (fun _ _ _ n => (Done (Some ErrNotExist), S n)) 0)
    as (_ & _ & _ & Hprop).
  apply (Hprop ErrNotExist 1). reflexivity.
Defined.

(** ** Scenarios of the specification, and the zero value at work *)

Example scenario_write_then_read :
  fst (ReadFile "a.txt"
         (snd (WriteFile "a.txt" (list_byte_of_string "hello") 420 (fresh_mem empty_heap))))
  = Done (list_byte_of_string "hello", None).
Proof. reflexivity. Qed.

Example handle_outlives_entry :
  fst (ReadFile "a.txt"
         (snd (exec_all [CallCreate "a.txt"; CallCreate "a.txt";
                         CallWrite (mkInMemoryCloser 0) (list_byte_of_string "lost");
                         CallWrite (mkInMemoryCloser 1) (list_byte_of_string "kept")]
                 (fresh_mem empty_heap))))
  = Done (list_byte_of_string "kept", None).
Proof. reflexivity. Qed.

Example zero_value_WriteFile_panics :
  fst (WriteFile "a.txt" (list_byte_of_string "hello") 420 zero_value_mem)
  = Panic NilMapAssignment.
Proof. reflexivity. Qed.

Example zero_value_ReadFile_not_found :
  fst (ReadFile "a.txt" zero_value_mem) = Done ([], Some (FakeFileNotFound "a.txt")).
Proof. reflexivity. Qed.

Example SetIsDir_then_IsDir : IsDir (SetIsDir NewFakeFI true) = true.
Proof. reflexivity. Qed.

(** After MkdirAll of a path the FakeFS holds what it holds after a
    WriteFile of no bytes at that path: the same entries, the same
    contents. *)
Lemma MkdirAll_like_empty_WriteFile (m : Mem) (p : string) (perm perm' : Z) :
  allocated m ->
  fake (snd (MkdirAll p perm m)) = fake (snd (WriteFile p [] perm' m)) /\
  (forall l, cells (heap (snd (MkdirAll p perm m))) l
             = cells (heap (snd (WriteFile p [] perm' m))) l) /\
  next (heap (snd (MkdirAll p perm m))) = next (heap (snd (WriteFile p [] perm' m))).
Proof.
  intros [fm Hfm]%allocated_Some.
  rewrite (WriteFile_allocated m fm p [] perm' Hfm).
  unfold MkdirAll, bind. rewrite (Create_allocated m fm p Hfm). simpl.
  repeat split. intros l. unfold store. by destruct (Nat.eqb (next (heap m)) l).
Qed.

(** ** Beyond the claims: the FakeFS as a flat store *)

Lemma contents_lookup (m : Mem) (p : string) :
  contents m !! p = cells (heap m) <$> entry m p.
Proof.
  unfold contents, entry. destruct (Files (fake m)) as [fm|].
  - apply lookup_fmap.
  - apply lookup_empty.
Qed.

Lemma fmap_cells_below (fm : gmap string loc) (n : loc) (c c' : loc -> Buffer) :
  (forall p l, fm !! p = Some l -> l < n) ->
  (forall l, l < n -> c' l = c l) ->
  c' <$> fm = c <$> fm.
Proof.
  intros Hwf Hc. apply map_fmap_ext. intros p l Hl. apply Hc. by eapply Hwf.
Qed.

(** One call that is no Write through a handle, on a FakeFS with its map
    made: it returns, with the error of the flat store, and leaves the
    contents of the flat store; the map stays made and [wf] is kept. *)
Lemma exec_flat_step (c : call) (m : Mem) :
  allocated m -> wf m -> is_handle_write c = false ->
  exists m',
    exec c m = (Done (fst (flat_step c (contents m))), m') /\
    contents m' = snd (flat_step c (contents m)) /\
    allocated m' /\ wf m'.
Proof.
  intros Ha Hwf Hc.
  pose proof (exec_preserves_wf c m Hwf) as Hwf'.
  destruct m as [[fmo] [cs n]]. destruct fmo as [fm|]; [clear Ha|by destruct Ha].
  assert (forall p l, fm !! p = Some l -> l < n) as Hlt by exact Hwf.
  destruct c as [name|name|path|path|dirName perm|filename data perm|i b|i];
    try discriminate Hc; unfold_calls; unfold contents, allocated; simpl.
  - rewrite lookup_fmap. destruct (fm !! name); simpl; eauto 10.
  - rewrite lookup_fmap. destruct (fm !! name) eqn:Hn; simpl in *.
    + eexists. split; [done|]. simpl. rewrite fmap_delete. eauto.
    + eexists. split; [done|]. simpl. rewrite delete_id; [eauto|].
      by rewrite lookup_fmap, Hn.
  - eexists. split; [done|]. simpl. rewrite fmap_insert, store_same.
    split; [|eauto]. f_equal. apply (fmap_cells_below fm n); [done|].
    intros l Hl. apply store_other. lia.
  - rewrite lookup_fmap. destruct (fm !! path); simpl; eauto 10.
  - eexists. split; [done|]. simpl. rewrite fmap_insert, store_same.
    split; [|eauto]. f_equal. apply (fmap_cells_below fm n); [done|].
    intros l Hl. apply store_other. lia.
  - rewrite lookup_insert_eq in *. simpl in *.
    eexists. split; [done|]. simpl. rewrite fmap_insert, !store_same.
    split; [|eauto]. f_equal. apply (fmap_cells_below fm n); [done|].
    intros l Hl. rewrite !store_other by lia. done.
  - eauto 10.
Qed.

(** X1: from a FakeFS whose map is made and whose buffers are allocated
    ones, a run of calls without Write through a handle returns, call by
    call, the errors of the flat key-value store, and leaves its
    contents. *)
Theorem FakeFS_refines_flat_store (cs : list call) (m : Mem) :
  allocated m -> wf m -> forallb (fun c => negb (is_handle_write c)) cs = true ->
  exists m',
    exec_trace cs m = (Done (fst (flat_trace cs (contents m))), m') /\
    contents m' = snd (flat_trace cs (contents m)).
Proof.
  revert m. induction cs as [|c cs IH]; intros m Ha Hwf Hcs; simpl in *.
  - by exists m.
  - apply andb_true_iff in Hcs as [Hc Hcs]. apply negb_true_iff in Hc.
    destruct (exec_flat_step c m Ha Hwf Hc) as (m1 & He & Hk & Ha1 & Hwf1).
    destruct (IH m1 Ha1 Hwf1 Hcs) as (m2 & Ht & Hk2).
    exists m2. unfold bind. rewrite He, Ht. simpl. by rewrite <- Hk.
Qed.

Lemma FakeFS_refines_flat_store_witness :
  exists m',
    exec_trace sample_calls (fresh_mem empty_heap)
    = (Done [None; None; None; Some ErrNotExist], m') /\
    contents m' = {[ "b.txt" := [] ]}.
Proof.
  destruct (FakeFS_refines_flat_store sample_calls (fresh_mem empty_heap))
    as (m' & Ht & Hk).
  - unfold allocated. simpl. discriminate.
  - apply fresh_mem_wf.
  - reflexivity.
  - exists m'. split; [exact Ht|]. rewrite Hk. vm_compute. reflexivity.
Defined.

(** ** Beyond the claims: buffers and handles *)

Lemma exec_preserves_separate (c : call) (m : Mem) :
  wf m -> separate m -> separate (snd (exec c m)).
Proof.
  intros Hwf Hsep p q l. specialize (Hsep p q l).
  pose proof (Hwf p l) as Hp. pose proof (Hwf q l) as Hq.
  destruct m as [[fmo] [cs n]].
  destruct c as [name|name|path|path|dirName perm|filename data perm|i b|i];
    unfold_calls; destruct fmo as [fm|]; simpl in *; try done.
  - by destruct (fm !! name).
  - destruct (fm !! name) eqn:Hn; simpl; [|done].
    rewrite !lookup_delete. repeat case_decide; try done.
  - rewrite !lookup_insert. repeat case_decide; subst; try done.
    + intros [= <-] Hl. specialize (Hq Hl). lia.
    + intros Hl [= <-]. specialize (Hp Hl). lia.
  - by destruct (fm !! path).
  - rewrite !lookup_insert. repeat case_decide; subst; try done.
    + intros [= <-] Hl. specialize (Hq Hl). lia.
    + intros Hl [= <-]. specialize (Hp Hl). lia.
  - rewrite lookup_insert_eq. simpl.
    rewrite !lookup_insert. repeat case_decide; subst; try done.
    + intros [= <-] Hl. specialize (Hq Hl). lia.
    + intros Hl [= <-]. specialize (Hp Hl). lia.
Qed.

Lemma exec_all_preserves_separate (cs : list call) (m : Mem) :
  wf m -> separate m -> separate (snd (exec_all cs m)).
Proof.
  revert m. induction cs as [|c cs IH]; intros m Hwf Hsep; simpl; [done|].
  pose proof (exec_preserves_wf c m Hwf) as Hwf'.
  pose proof (exec_preserves_separate c m Hwf Hsep) as Hsep'.
  unfold bind. destruct (exec c m) as [[o|v] m']; simpl in *; [by apply IH | done].
Qed.

Lemma fresh_mem_separate (h : Heap) : separate (fresh_mem h).
Proof.
  intros p q l He. unfold entry, fresh_mem in He. simpl in He.
  by rewrite lookup_empty in He.
Qed.

(** X2: whatever calls are made on a FakeFS since [NewFakeFS], handle
    writes included, no two paths of [Files] ever point to one buffer, and
    the buffer [new(bytes.Buffer)] returns next is none of them. *)
Theorem FakeFS_buffers_never_shared (h : Heap) (cs : list call) :
  separate (snd (exec_all cs (fresh_mem h))) /\ wf (snd (exec_all cs (fresh_mem h))).
Proof.
  split.
  - apply exec_all_preserves_separate; [apply fresh_mem_wf | apply fresh_mem_separate].
  - apply exec_all_preserves_wf, fresh_mem_wf.
Qed.

(** X3: a Write through a handle always returns the length written and
    nil; when the paths have separate buffers, it appends the bytes to the
    content of the one path whose entry is the handle's buffer and leaves
    every other path as it was, and when no entry is the handle's buffer
    it changes the content of no path. *)
Theorem handle_Write_appends_in_place (i : inMemoryCloser) (b : list byte) (m : Mem) :
  separate m ->
  exists m',
    inMemoryCloser_Write i b m = (Done (Z.of_nat (length b), None), m') /\
    (forall p, entry m p = Some (buf i) ->
       contents m' = <[p := cells (heap m) (buf i) ++ b]> (contents m)) /\
    ((forall p, entry m p <> Some (buf i)) -> contents m' = contents m).
Proof.
  intros Hsep. eexists. split; [reflexivity|].
  split.
  - intros p Hp. apply map_eq. intros q.
    rewrite contents_lookup. unfold entry at 1. simpl. fold (entry m q).
    destruct (decide (p = q)) as [<-|Hne].
    + rewrite lookup_insert_eq, Hp. simpl. by rewrite store_same.
    + rewrite lookup_insert_ne, contents_lookup by done.
      destruct (entry m q) as [l|] eqn:Hq; simpl; [|done].
      rewrite store_other; [done|]. intros <-. by apply Hne, (Hsep p q (buf i)).
  - intros Hno. apply map_eq. intros q.
    rewrite !contents_lookup. unfold entry at 1. simpl. fold (entry m q).
    destruct (entry m q) as [l|] eqn:Hq; simpl; [|done].
    rewrite store_other; [done|]. intros <-. by apply (Hno q).
Qed.

Lemma handle_Write_appends_in_place_witness :
  (exists m',
     inMemoryCloser_Write (mkInMemoryCloser 0) (list_byte_of_string "lo")
       (snd (WriteFile "a.txt" (list_byte_of_string "hel") 420 (fresh_mem empty_heap)))
     = (Done (2%Z, None), m') /\
     contents m' = {[ "a.txt" := list_byte_of_string "hello" ]}) /\
  (exists m',
     inMemoryCloser_Write (mkInMemoryCloser 7) (list_byte_of_string "lo")
       (snd (WriteFile "a.txt" (list_byte_of_string "hel") 420 (fresh_mem empty_heap)))
     = (Done (2%Z, None), m') /\
     contents m' = {[ "a.txt" := list_byte_of_string "hel" ]}).
Proof.
  assert (separate (snd (WriteFile "a.txt" (list_byte_of_string "hel") 420
                           (fresh_mem empty_heap)))) as Hsep.
  { apply (exec_all_preserves_separate
             [CallWriteFile "a.txt" (list_byte_of_string "hel") 420]
             (fresh_mem empty_heap) (fresh_mem_wf _) (fresh_mem_separate _)). }
  split.
  - destruct (handle_Write_appends_in_place (mkInMemoryCloser 0)
                (list_byte_of_string "lo") _ Hsep) as (m' & Hw & Hin & _).
    exists m'. split; [exact Hw|].
    rewrite (Hin "a.txt" eq_refl). vm_compute. reflexivity.
  - destruct (handle_Write_appends_in_place (mkInMemoryCloser 7)
                (list_byte_of_string "lo") _ Hsep) as (m' & Hw & _ & Hout).
    exists m'. split; [exact Hw|].
    rewrite Hout; [vm_compute; reflexivity|].
    intros p Hp.
    pose proof (exec_all_preserves_wf
                  [CallWriteFile "a.txt" (list_byte_of_string "hel") 420]
                  (fresh_mem empty_heap) (fresh_mem_wf _) p 7 Hp) as Hlt.
    vm_compute in Hlt. lia.
Defined.

(** ** Beyond the claims: panics *)




Lemma exec_nil_map (c : call) (m : Mem) :
  Files (fake m) = None ->
  Files (fake (snd (exec c m))) = None /\
  (stores c = true -> fst (exec c m) = Panic NilMapAssignment) /\
  (stores c = false -> exists e, fst (exec c m) = Done e).
Proof.
  intros Hnil. destruct m as [[fmo] [cs n]]. simpl in Hnil. subst fmo.
  destruct c as [name|name|path|path|dirName perm|filename data perm|i b|i];
    unfold_calls; repeat split; try done; eauto.
Qed.

(** X5: a FakeFS whose map is nil (the zero value, as in [NewFakeFP])
    stays so under every run of calls; the run panics with the nil-map
    assignment exactly when it has a Create, MkdirAll or WriteFile, and
    returns otherwise. *)
Theorem nil_map_FakeFS_panics_on_store (cs : list call) (m : Mem) :
  Files (fake m) = None ->
  Files (fake (snd (exec_all cs m))) = None /\
  fst (exec_all cs m) = if existsb stores cs then Panic NilMapAssignment else Done tt.
Proof.
  revert m. induction cs as [|c cs IH]; intros m Hnil; simpl; [done|].
  destruct (exec_nil_map c m Hnil) as (Hnil' & Hst & Hnst).
  unfold bind. destruct (stores c) eqn:Hc; simpl.
  - specialize (Hst eq_refl). destruct (exec c m) as [[e|v] m']; simpl in *; [done|].
    by injection Hst as ->.
  - destruct (Hnst eq_refl) as [e He].
    destruct (exec c m) as [[e'|v] m']; simpl in *; [by apply IH | done].
Qed.

Lemma nil_map_FakeFS_panics_on_store_witness :
  Files (fake (snd (exec_all sample_calls zero_value_mem))) = None /\
  fst (exec_all sample_calls zero_value_mem) = Panic NilMapAssignment.
Proof.
  apply (nil_map_FakeFS_panics_on_store sample_calls zero_value_mem). reflexivity.
Defined.

(** ** Beyond the claims: what a handle does over time *)

Lemma handle_calls_append (i : inMemoryCloser) (os : list handle_op) (p : string) (m : Mem) :
  entry m p = Some (buf i) ->
  ReadFile p (snd (exec_all (map (handle_call i) os) m))
  = (Done (cells (heap m) (buf i) ++ written os, None),
     snd (exec_all (map (handle_call i) os) m)).
Proof.
  revert m. induction os as [|o os IH]; intros m He; simpl.
  - rewrite app_nil_r. by apply ReadFile_entry.
  - destruct o as [b|]; simpl; unfold bind; simpl.
    + rewrite IH by exact He. simpl. by rewrite store_same, app_assoc.
    + by rewrite IH.
Qed.

(** X6: after a Create of a path that returned a handle, whatever Writes
    and Closes the caller makes on that handle, in any order, ReadFile of
    the path returns the written chunks one after the other: each Write
    appends, and Close, before or between the Writes, changes nothing. *)
Theorem handle_Writes_accumulate (m m1 : Mem) (p : string) (i : inMemoryCloser)
    (e : option error) (os : list handle_op) :
  Create p m = (Done (i, e), m1) ->
  ReadFile p (snd (exec_all (map (handle_call i) os) m1))
  = (Done (written os, None), snd (exec_all (map (handle_call i) os) m1)).
Proof.
  intros Hc. destruct (Files (fake m)) as [fm|] eqn:Hfm.
  - rewrite (Create_allocated m fm p Hfm) in Hc. injection Hc as <- _ <-.
    rewrite (handle_calls_append _ os p); simpl.
    + by rewrite store_same.
    + unfold entry. simpl. apply lookup_insert_eq.
  - pose proof (Create_nil_map m p Hfm) as Hp. rewrite Hc in Hp. discriminate.
Qed.

Lemma handle_Writes_accumulate_witness :
  fst (ReadFile "a.txt"
         (snd (exec_all
                 (map (handle_call (mkInMemoryCloser 0))
                      [HandleWrite (list_byte_of_string "hel"); HandleClose;
                       HandleWrite (list_byte_of_string "lo")])
                 (snd (Create "a.txt" (fresh_mem empty_heap))))))
  = Done (list_byte_of_string "hello", None).
Proof.
  rewrite (handle_Writes_accumulate (fresh_mem empty_heap)
             (snd (Create "a.txt" (fresh_mem empty_heap))) "a.txt"
             (mkInMemoryCloser 0) None); reflexivity.
Defined.

(** X7: a handle is bound to the buffer Create made, not to the path.
    Once the path has been written again by WriteFile, created again, or
    removed, a Write through the old handle still returns without error
    but is not seen at the path: ReadFile gives the WriteFile's data, the
    empty content, or FakeFileNotFound. *)
Theorem stale_handle_Write_is_lost (m m1 : Mem) (p : string) (i : inMemoryCloser)
    (e : option error) (b : list byte) :
  Create p m = (Done (i, e), m1) ->
  (forall data perm,
     fst (ReadFile p (snd (exec_all [CallWriteFile p data perm; CallWrite i b] m1)))
     = Done (data, None)) /\
  fst (ReadFile p (snd (exec_all [CallCreate p; CallWrite i b] m1))) = Done ([], None) /\
  fst (ReadFile p (snd (exec_all [CallRemoveAll p; CallWrite i b] m1)))
  = Done ([], Some (FakeFileNotFound p)) /\
  (forall m', fst (inMemoryCloser_Write i b m') = Done (Z.of_nat (length b), None)).
Proof.
  intros Hc. destruct (Files (fake m)) as [fm|] eqn:Hfm.
  - rewrite (Create_allocated m fm p Hfm) in Hc. injection Hc as <- _ <-.
    set (n := next (heap m)).
    assert (S n <> n) as Hn by lia.
    repeat split.
    + intros data perm. simpl. unfold_calls. repeat (rewrite lookup_insert_eq; simpl).
      rewrite (store_other n (S n)) by lia. by rewrite !store_same.
    + simpl. unfold_calls. repeat (rewrite lookup_insert_eq; simpl).
      rewrite (store_other n (S n)) by lia. by rewrite !store_same.
    + simpl. unfold_calls. repeat (rewrite lookup_insert_eq; simpl).
      by rewrite lookup_delete_eq.
  - pose proof (Create_nil_map m p Hfm) as Hp. rewrite Hc in Hp. discriminate.
Qed.

Lemma stale_handle_Write_is_lost_witness :
  fst (ReadFile "a.txt"
         (snd (exec_all [CallWriteFile "a.txt" (list_byte_of_string "new") 420;
                         CallWrite (mkInMemoryCloser 0) (list_byte_of_string "late")]
                 (snd (Create "a.txt" (fresh_mem empty_heap))))))
  = Done (list_byte_of_string "new", None).
Proof.
  destruct (stale_handle_Write_is_lost (fresh_mem empty_heap)
              (snd (Create "a.txt" (fresh_mem empty_heap))) "a.txt"
              (mkInMemoryCloser 0) None (list_byte_of_string "late") eq_refl)
    as (Hw & _).
  apply (Hw (list_byte_of_string "new") 420%Z).
Defined.

(** ** Beyond the claims: one path at a time *)

Lemma RemoveAll_entry_other (m : Mem) (p q : string) :
  q <> p -> entry (snd (RemoveAll p m)) q = entry m q /\ heap (snd (RemoveAll p m)) = heap m.
Proof.
  intros Hne. destruct m as [[fmo] h]. unfold_calls.
  destruct fmo as [fm|]; simpl; [|done].
  destruct (fm !! p); simpl; [|done]. by rewrite lookup_delete_ne.
Qed.

Lemma ReadFile_by_entry (m m' : Mem) (q : string) :
  entry m' q = entry m q ->
  (forall l, entry m q = Some l -> cells (heap m') l = cells (heap m) l) ->
  fst (ReadFile q m') = fst (ReadFile q m).
Proof.
  intros He Hc. destruct (entry m q) as [l|] eqn:Hq.
  - rewrite (ReadFile_entry m' q l He), (ReadFile_entry m q l Hq). simpl.
    by rewrite (Hc l).
  - by rewrite (ReadFile_no_entry m' q He), (ReadFile_no_entry m q Hq).
Qed.

Lemma Stat_by_entry (m m' : Mem) (q : string) :
  entry m' q = entry m q -> fst (Stat q m') = fst (Stat q m).
Proof.
  intros He. destruct (entry m q) as [l|] eqn:Hq.
  - by rewrite (Stat_entry m' q l He), (Stat_entry m q l Hq).
  - by rewrite (Stat_no_entry m' q He), (Stat_no_entry m q Hq).
Qed.

(** X8: RemoveAll removes the one entry whose key is the name it is
    given, in every state: what ReadFile and Stat return for any other
    path, one that has the name as a prefix included, is what they
    returned before. *)
Theorem RemoveAll_removes_one_key (m : Mem) (p q : string) :
  q <> p ->
  fst (ReadFile q (snd (RemoveAll p m))) = fst (ReadFile q m) /\
  fst (Stat q (snd (RemoveAll p m))) = fst (Stat q m).
Proof.
  intros Hne. destruct (RemoveAll_entry_other m p q Hne) as [He Hh]. split.
  - apply ReadFile_by_entry; [done|]. intros l _. by rewrite Hh.
  - by apply Stat_by_entry.
Qed.

Lemma RemoveAll_removes_one_key_witness :
  fst (ReadFile "dir/a.txt"
         (snd (RemoveAll "dir"
                 (snd (exec_all [CallMkdirAll "dir" 493;
                                 CallWriteFile "dir/a.txt" (list_byte_of_string "hello") 420]
                         (fresh_mem empty_heap))))))
  = Done (list_byte_of_string "hello", None).
Proof.
  destruct (RemoveAll_removes_one_key
              (snd (exec_all [CallMkdirAll "dir" 493;
                              CallWriteFile "dir/a.txt" (list_byte_of_string "hello") 420]
                      (fresh_mem empty_heap)))
              "dir" "dir/a.txt") as [Hr _].
  - discriminate.
  - rewrite Hr. reflexivity.
Defined.

Lemma MkdirAll_entry_other (m : Mem) (p q : string) (perm : Z) :
  q <> p -> entry (snd (MkdirAll p perm m)) q = entry m q.
Proof.
  intros Hne. destruct m as [[fmo] h]. unfold_calls.
  destruct fmo as [fm|]; simpl; [|done]. by rewrite lookup_insert_ne.
Qed.

(** X9: MkdirAll makes the one entry whose key is the name it is given,
    and none for the parent segments of that name: in every state, Stat of
    any other path returns what it returned before, and so does ReadFile
    when the buffers of the entries are allocated ones. *)
Theorem MkdirAll_makes_one_key (m : Mem) (p q : string) (perm : Z) :
  q <> p ->
  fst (Stat q (snd (MkdirAll p perm m))) = fst (Stat q m) /\
  (wf m -> fst (ReadFile q (snd (MkdirAll p perm m))) = fst (ReadFile q m)).
Proof.
  intros Hne. pose proof (MkdirAll_entry_other m p q perm Hne) as He. split.
  - by apply Stat_by_entry.
  - intros Hwf. apply ReadFile_by_entry; [done|].
    intros l Hl. specialize (Hwf q l Hl).
    destruct m as [[fmo] [cs n]]. unfold_calls.
    destruct fmo as [fm|]; simpl in *; apply store_other; lia.
Qed.

Lemma MkdirAll_makes_one_key_witness :
  fst (Stat "a" (snd (MkdirAll "a/b/c" 493 (fresh_mem empty_heap))))
  = Done (None, Some ErrNotExist) /\
  fst (ReadFile "a" (snd (MkdirAll "a/b/c" 493 (fresh_mem empty_heap))))
  = Done ([], Some (FakeFileNotFound "a")).
Proof.
  destruct (MkdirAll_makes_one_key (fresh_mem empty_heap) "a/b/c" "a" 493) as [Hs Hr].
  - discriminate.
  - split; [rewrite Hs | rewrite (Hr (fresh_mem_wf empty_heap))]; reflexivity.
Defined.


(** X11: RemoveAll of a path just removed fails: whatever the first
    RemoveAll returned, in every state, a second RemoveAll of the same
    path returns FakeFileNotFound of that path and changes nothing. *)
Theorem RemoveAll_twice_fails (m : Mem) (p : string) :
  RemoveAll p (snd (RemoveAll p m))
  = (Done (Some (FakeFileNotFound p)), snd (RemoveAll p m)).
Proof.
  apply RemoveAll_no_entry.
  destruct m as [[fmo] h]. unfold_calls. destruct fmo as [fm|]; simpl; [|done].
  destruct (fm !! p) eqn:Hp; simpl; [apply lookup_delete_eq | done].
Qed.

(** X12: a file keeps its content under calls on other paths and Writes
    to other buffers: when the buffers of the entries are allocated ones
    and [p] has an entry, any run of calls none of which is a WriteFile,
    Create, MkdirAll or RemoveAll of [p] or a Write to the buffer of [p]
    leaves what ReadFile of [p] returns as it was. *)
Theorem ReadFile_stable_under_other_calls (cs : list call) (p : string) (l : loc) (m : Mem) :
  wf m -> entry m p = Some l ->
  forallb (fun c => negb (modifies_path p l c)) cs = true ->
  fst (ReadFile p (snd (exec_all cs m))) = fst (ReadFile p m).
Proof.
  intros Hwf He Hcs.
  destruct (exec_all_frame cs p l m He (Hwf p l He) Hcs) as [He' Hc].
  apply ReadFile_by_entry; [congruence|].
  intros l' Hl'. rewrite He in Hl'. by injection Hl' as <-.
Qed.

Lemma ReadFile_stable_under_other_calls_witness :
  fst (ReadFile "a.txt"
         (snd (exec_all [CallCreate "b.txt";
                         CallWrite (mkInMemoryCloser 1) (list_byte_of_string "other");
                         CallRemoveAll "b.txt"; CallMkdirAll "a.txt/sub" 493]
                 (snd (WriteFile "a.txt" (list_byte_of_string "hello") 420
                         (fresh_mem empty_heap))))))
  = Done (list_byte_of_string "hello", None).
Proof.
  rewrite (ReadFile_stable_under_other_calls _ "a.txt" 0).
  - reflexivity.
  - apply (exec_all_preserves_wf
             [CallWriteFile "a.txt" (list_byte_of_string "hello") 420]
             (fresh_mem empty_heap) (fresh_mem_wf _)).
  - reflexivity.
  - reflexivity.
Defined.

(** ** Beyond the claims: WriteFile and MkdirAll as compositions *)

(** X13: in every state, WriteFile does what Create, one Write of the
    data through the returned handle, and Close do: the same outcome (the
    same panic on the nil map) and the same memory. *)
Theorem WriteFile_is_Create_Write_Close (m : Mem) (filename : string)
    (data : list byte) (perm : Z) :
  WriteFile filename data perm m = Create_Write_Close filename data m.
Proof.
  destruct m as [[fmo] h]. unfold Create_Write_Close. unfold_calls.
  destruct fmo as [fm|]; simpl; [|done]. by rewrite lookup_insert_eq.
Qed.

(** X16: in every state, MkdirAll does to the FakeFS what WriteFile of
    no bytes does, whatever the two modes: the same outcome (the same
    panic on the nil map), the same map, the same bytes in every buffer.
    Nothing in the state tells a directory from an empty file. *)
Theorem MkdirAll_is_WriteFile_of_nothing (m : Mem) (p : string) (perm perm' : Z) :
  fst (MkdirAll p perm m)
  = match fst (WriteFile p [] perm' m) with
    | Done r => Done (snd r)
    | Panic v => Panic v
    end /\
  fake (snd (MkdirAll p perm m)) = fake (snd (WriteFile p [] perm' m)) /\
  next (heap (snd (MkdirAll p perm m))) = next (heap (snd (WriteFile p [] perm' m))) /\
  (forall l, cells (heap (snd (MkdirAll p perm m))) l
             = cells (heap (snd (WriteFile p [] perm' m))) l).
Proof.
  destruct m as [[fmo] [cs n]]. unfold_calls. destruct fmo as [fm|]; simpl.
  - rewrite lookup_insert_eq. simpl. repeat split.
    intros l. unfold store. destruct (Nat.eqb n l) eqn:Hl; [|done].
    by rewrite Nat.eqb_refl.
  - done.
Qed.

(** ** Beyond the claims: the message of FakeFileNotFound *)

Lemma length_append (s t : string) :
  String.length (String.append s t) = String.length s + String.length t.
Proof. induction s as [|a s IH]; simpl; [done | by rewrite IH]. Qed.

Lemma append_cancel_r (t : string) (s1 s2 : string) :
  String.length s1 = String.length s2 ->
  String.append s1 t = String.append s2 t -> s1 = s2.
Proof.
  revert s2. induction s1 as [|a s1 IH]; intros [|b s2] Hlen Happ;
    simpl in *; try discriminate; [done|].
  injection Hlen as Hlen. injection Happ as -> Happ. f_equal. by apply IH.
Qed.

(** X14: the message of a FakeFileNotFound is the file name between
    "Fake file " and " not found", and it tells the file: two such errors
    with the same message name the same file. *)
Theorem FakeFileNotFound_message_names_file (a b : string) :
  String.length (Error (FakeFileNotFound a)) = 20 + String.length a /\
  (Error (FakeFileNotFound a) = Error (FakeFileNotFound b) -> a = b).
Proof.
  split.
  - unfold Error. rewrite !length_append. simpl. lia.
  - simpl. intros H. injection H as H.
    apply (append_cancel_r " not found"); [|done].
    apply (f_equal String.length) in H. rewrite !length_append in H.
    simpl in H. lia.
Qed.

Lemma FakeFileNotFound_message_names_file_witness :
  Error (FakeFileNotFound "a.txt") = "Fake file a.txt not found" /\ "a.txt" = "a.txt".
Proof.
  split; [reflexivity|].
  apply (FakeFileNotFound_message_names_file "a.txt" "a.txt"). reflexivity.
Defined.

(** ** Beyond the claims: walking several roots *)



